(** * GROMACS (mo833a fork): frame-pair comparison and the SSE inner-loop kernels

    Two parts of the repository are embedded here.

    - [FramePair]: the class template [FramePairManager] of
      [src/programs/mdrun/tests/mdruncomparison.h], translated from its
      source: the two readers are threaded as explicit state, the gtest
      failures and the calls of the comparison callback are recorded as an
      event trace, and the [while] loop runs on fuel.

    - [Kernel], [Prototypes]: the kernel family declared in
      [include/inner_sse.h].  The header holds the 24 prototypes only: the
      enumeration of the variants and their parameter lists are translated
      from it.  The loop bodies are not among the repository's files and
      are not modelled. *)

From Stdlib Require Import ZArith Lia Bool.
From stdpp Require Import base tactics option list strings.

Local Open Scope Z_scope.

(* ===================================================================== *)
(** * Part I: definitions for [FramePairManager]                          *)
(* ===================================================================== *)

Module FramePair.

(** The template parameter [FrameReader] is used through two member
    functions only: [readNextFrame()], which probes for a next frame and
    answers whether there is one, and [frame()], which hands out the frame
    that was probed for.  Both are non-const members called through the
    owning pointer, so both may change the reader. *)
Class FrameReaderOps (FrameReader Frame : Type) := {
  readNextFrame : FrameReader -> bool * FrameReader;
  frame : FrameReader -> Frame * FrameReader
}.

(** What a run of the manager does to the outside world: a non-fatal gtest
    failure ([ADD_FAILURE() << msg]) or a call of the callback. *)
Inductive event (Frame : Type) : Type :=
| AddFailure (msg : string)
| CompareTwoFrames (firstFrame secondFrame : Frame).
Arguments AddFailure {Frame} msg.
Arguments CompareTwoFrames {Frame} firstFrame secondFrame.

(** The two data members [first_] and [second_]. *)
Record FramePairManager (FrameReader : Type) : Type := mkManager {
  first_ : FrameReader;
  second_ : FrameReader
}.
Arguments mkManager {FrameReader} first_ second_.
Arguments first_ {FrameReader} _.
Arguments second_ {FrameReader} _.

Definition first_longer : string :=
  "first file had at least one more frame than second file".
Definition second_longer : string :=
  "second file had at least one more frame than first file".

Section Manager.
Context {FrameReader Frame : Type} `{!FrameReaderOps FrameReader Frame}.

(** [shouldContinueComparing]: the answer, the failures it registered,
    and the manager afterwards. *)
Definition shouldContinueComparing (m : FramePairManager FrameReader)
  : bool * list string * FramePairManager FrameReader :=
  let '(b1, r1) := readNextFrame (first_ m) in
  if b1 then
    let '(b2, r2) := readNextFrame (second_ m) in
    if b2 then (true, [], mkManager r1 r2)
    else (false, [first_longer], mkManager r1 r2)
  else
    let '(b2, r2) := readNextFrame (second_ m) in
    if b2 then (false, [second_longer], mkManager r1 r2)
    else (false, [], mkManager r1 r2).

(** [compareAllFramePairs]: the [while] loop, one iteration per unit of
    fuel.  The callback answers with the failures it registers; its call
    is recorded in the trace before them.  [SCOPED_TRACE] only labels the
    failures registered in its scope and is left out.  [None] means the
    fuel ran out before the loop condition turned false. *)
Fixpoint compareAllFramePairs (fuel : nat)
    (compareTwoFrames : Frame -> Frame -> list string)
    (m : FramePairManager FrameReader)
  : option (list (event Frame) * FramePairManager FrameReader) :=
  match fuel with
  | O => None
  | S fuel' =>
      let '(continue, failures, m1) := shouldContinueComparing m in
      if continue then
        let '(firstFrame, r1) := frame (first_ m1) in
        let '(secondFrame, r2) := frame (second_ m1) in
        match compareAllFramePairs fuel' compareTwoFrames (mkManager r1 r2) with
        | Some (evs, m') =>
            Some (map AddFailure failures
                    ++ CompareTwoFrames firstFrame secondFrame
                    :: map AddFailure (compareTwoFrames firstFrame secondFrame)
                    ++ evs, m')
        | None => None
        end
      else Some (map AddFailure failures, m1)
  end.

(** The calls of the callback in a trace, in order. *)
Definition compared_pairs (evs : list (event Frame)) : list (Frame * Frame) :=
  omap (fun e => match e with
                 | CompareTwoFrames a b => Some (a, b)
                 | AddFailure _ => None
                 end) evs.

(** A reader delivers the frames [fs]: probing succeeds once per frame,
    [frame()] then hands the frame out, and after the last one probing
    fails. *)
Inductive delivers : FrameReader -> list Frame -> Prop :=
| delivers_done r r' :
    readNextFrame r = (false, r') -> delivers r []
| delivers_frame r r' r'' f fs :
    readNextFrame r = (true, r') ->
    frame r' = (f, r'') ->
    delivers r'' fs ->
    delivers r (f :: fs).
End Manager.

(** A reader over an in-memory trajectory: probing looks at the head,
    [frame()] consumes it. *)
Definition list_readNextFrame (r : list nat) : bool * list nat :=
  match r with
  | [] => (false, [])
  | _ :: _ => (true, r)
  end.

Definition list_frame (r : list nat) : nat * list nat :=
  match r with
  | [] => (O, [])
  | f :: r' => (f, r')
  end.

#[export] Instance list_reader : FrameReaderOps (list nat) nat := {
  readNextFrame := list_readNextFrame;
  frame := list_frame
}.

End FramePair.

(* ===================================================================== *)
(** * Part II: the entry points of the inner-loop kernels                 *)
(* ===================================================================== *)

Module Kernel.

(** ** The entry points of [inner_sse.h] *)

(** One constructor per prototype, in the order of the header. *)
Inductive variant : Set :=
| inl0100_sse | inl0110_sse | inl0300_sse | inl0310_sse
| inl1000_sse | inl1010_sse | inl1020_sse | inl1030_sse
| inl1100_sse | inl1110_sse | inl1120_sse | inl1130_sse
| inl3000_sse | inl3010_sse | inl3020_sse | inl3030_sse
| inl3100_sse | inl3110_sse | inl3120_sse | inl3130_sse
| inl3300_sse | inl3310_sse | inl3320_sse | inl3330_sse.

(** The prototype takes [float charge[], float facel, float Vc[]]. *)
Definition takes_Vc (v : variant) : bool :=
  match v with
  | inl0100_sse | inl0110_sse | inl0300_sse | inl0310_sse => false
  | _ => true
  end.

(** The prototype takes [int type[], int ntype, float nbfp[], float Vnb[]]. *)
Definition takes_Vnb (v : variant) : bool :=
  match v with
  | inl1000_sse | inl1010_sse | inl1020_sse | inl1030_sse
  | inl3000_sse | inl3010_sse | inl3020_sse | inl3030_sse => false
  | _ => true
  end.

(** The prototype takes [float tabscale, float VFtab[]]. *)
Definition takes_VFtab (v : variant) : bool :=
  match v with
  | inl0300_sse | inl0310_sse
  | inl3000_sse | inl3010_sse | inl3020_sse | inl3030_sse
  | inl3100_sse | inl3110_sse | inl3120_sse | inl3130_sse
  | inl3300_sse | inl3310_sse | inl3320_sse | inl3330_sse => true
  | _ => false
  end.

(** The prototype takes [int nsatoms[]]. *)
Definition takes_nsatoms (v : variant) : bool :=
  match v with
  | inl0110_sse | inl0310_sse | inl1010_sse | inl1110_sse
  | inl3010_sse | inl3110_sse | inl3310_sse => true
  | _ => false
  end.

End Kernel.

(* ===================================================================== *)
(** * Part II-b: the prototypes of [inner_sse.h], as declared             *)
(* ===================================================================== *)

Module Prototypes.
Import Kernel.

(** The two element types the header uses. *)
Inductive ctype : Set := c_int | c_float.

(** One parameter of a prototype: [int nri] is a value, [int iinr[]] an
    array. *)
Record param : Set := mkparam {
  ptype : ctype;
  pname : string;
  parray : bool
}.

Definition val (t : ctype) (n : string) : param := mkparam t n false.
Definition arr (t : ctype) (n : string) : param := mkparam t n true.

#[export] Instance ctype_eq_dec : EqDecision ctype.
Proof. solve_decision. Defined.
#[export] Instance param_eq_dec : EqDecision param.
Proof. solve_decision. Defined.

(** The identifier each prototype declares. *)
Definition name (v : variant) : string :=
  match v with
  | inl0100_sse => "inl0100_sse"
  | inl0110_sse => "inl0110_sse"
  | inl0300_sse => "inl0300_sse"
  | inl0310_sse => "inl0310_sse"
  | inl1000_sse => "inl1000_sse"
  | inl1010_sse => "inl1010_sse"
  | inl1020_sse => "inl1020_sse"
  | inl1030_sse => "inl1030_sse"
  | inl1100_sse => "inl1100_sse"
  | inl1110_sse => "inl1110_sse"
  | inl1120_sse => "inl1120_sse"
  | inl1130_sse => "inl1130_sse"
  | inl3000_sse => "inl3000_sse"
  | inl3010_sse => "inl3010_sse"
  | inl3020_sse => "inl3020_sse"
  | inl3030_sse => "inl3030_sse"
  | inl3100_sse => "inl3100_sse"
  | inl3110_sse => "inl3110_sse"
  | inl3120_sse => "inl3120_sse"
  | inl3130_sse => "inl3130_sse"
  | inl3300_sse => "inl3300_sse"
  | inl3310_sse => "inl3310_sse"
  | inl3320_sse => "inl3320_sse"
  | inl3330_sse => "inl3330_sse"
  end.

(** The parameter list of each prototype, in the order of the header; all
    24 return [void]. *)
Definition prototype (v : variant) : list param :=
  match v with
  | inl0100_sse =>
      [val c_int "nri"; arr c_int "iinr"; arr c_int "jindex";
       arr c_int "jjnr"; arr c_int "shift"; arr c_float "shiftvec";
       arr c_float "fshift"; arr c_int "gid"; arr c_float "pos";
       arr c_float "faction"; arr c_int "type"; val c_int "ntype";
       arr c_float "nbfp"; arr c_float "Vnb"]
  | inl0110_sse =>
      [val c_int "nri"; arr c_int "iinr"; arr c_int "jindex";
       arr c_int "jjnr"; arr c_int "shift"; arr c_float "shiftvec";
       arr c_float "fshift"; arr c_int "gid"; arr c_float "pos";
       arr c_float "faction"; arr c_int "type"; val c_int "ntype";
       arr c_float "nbfp"; arr c_float "Vnb"; arr c_int "nsatoms"]
  | inl0300_sse =>
      [val c_int "nri"; arr c_int "iinr"; arr c_int "jindex";
       arr c_int "jjnr"; arr c_int "shift"; arr c_float "shiftvec";
       arr c_float "fshift"; arr c_int "gid"; arr c_float "pos";
       arr c_float "faction"; arr c_int "type"; val c_int "ntype";
       arr c_float "nbfp"; arr c_float "Vnb"; val c_float "tabscale";
       arr c_float "VFtab"]
  | inl0310_sse =>
      [val c_int "nri"; arr c_int "iinr"; arr c_int "jindex";
       arr c_int "jjnr"; arr c_int "shift"; arr c_float "shiftvec";
       arr c_float "fshift"; arr c_int "gid"; arr c_float "pos";
       arr c_float "faction"; arr c_int "type"; val c_int "ntype";
       arr c_float "nbfp"; arr c_float "Vnb"; val c_float "tabscale";
       arr c_float "VFtab"; arr c_int "nsatoms"]
  | inl1000_sse =>
      [val c_int "nri"; arr c_int "iinr"; arr c_int "jindex";
       arr c_int "jjnr"; arr c_int "shift"; arr c_float "shiftvec";
       arr c_float "fshift"; arr c_int "gid"; arr c_float "pos";
       arr c_float "faction"; arr c_float "charge"; val c_float "facel";
       arr c_float "Vc"]
  | inl1010_sse =>
      [val c_int "nri"; arr c_int "iinr"; arr c_int "jindex";
       arr c_int "jjnr"; arr c_int "shift"; arr c_float "shiftvec";
       arr c_float "fshift"; arr c_int "gid"; arr c_float "pos";
       arr c_float "faction"; arr c_float "charge"; val c_float "facel";
       arr c_float "Vc"; arr c_int "nsatoms"]
  | inl1020_sse =>
      [val c_int "nri"; arr c_int "iinr"; arr c_int "jindex";
       arr c_int "jjnr"; arr c_int "shift"; arr c_float "shiftvec";
       arr c_float "fshift"; arr c_int "gid"; arr c_float "pos";
       arr c_float "faction"; arr c_float "charge"; val c_float "facel";
       arr c_float "Vc"]
  | inl1030_sse =>
      [val c_int "nri"; arr c_int "iinr"; arr c_int "jindex";
       arr c_int "jjnr"; arr c_int "shift"; arr c_float "shiftvec";
       arr c_float "fshift"; arr c_int "gid"; arr c_float "pos";
       arr c_float "faction"; arr c_float "charge"; val c_float "facel";
       arr c_float "Vc"]
  | inl1100_sse =>
      [val c_int "nri"; arr c_int "iinr"; arr c_int "jindex";
       arr c_int "jjnr"; arr c_int "shift"; arr c_float "shiftvec";
       arr c_float "fshift"; arr c_int "gid"; arr c_float "pos";
       arr c_float "faction"; arr c_float "charge"; val c_float "facel";
       arr c_float "Vc"; arr c_int "type"; val c_int "ntype";
       arr c_float "nbfp"; arr c_float "Vnb"]
  | inl1110_sse =>
      [val c_int "nri"; arr c_int "iinr"; arr c_int "jindex";
       arr c_int "jjnr"; arr c_int "shift"; arr c_float "shiftvec";
       arr c_float "fshift"; arr c_int "gid"; arr c_float "pos";
       arr c_float "faction"; arr c_float "charge"; val c_float "facel";
       arr c_float "Vc"; arr c_int "type"; val c_int "ntype";
       arr c_float "nbfp"; arr c_float "Vnb"; arr c_int "nsatoms"]
  | inl1120_sse =>
      [val c_int "nri"; arr c_int "iinr"; arr c_int "jindex";
       arr c_int "jjnr"; arr c_int "shift"; arr c_float "shiftvec";
       arr c_float "fshift"; arr c_int "gid"; arr c_float "pos";
       arr c_float "faction"; arr c_float "charge"; val c_float "facel";
       arr c_float "Vc"; arr c_int "type"; val c_int "ntype";
       arr c_float "nbfp"; arr c_float "Vnb"]
  | inl1130_sse =>
      [val c_int "nri"; arr c_int "iinr"; arr c_int "jindex";
       arr c_int "jjnr"; arr c_int "shift"; arr c_float "shiftvec";
       arr c_float "fshift"; arr c_int "gid"; arr c_float "pos";
       arr c_float "faction"; arr c_float "charge"; val c_float "facel";
       arr c_float "Vc"; arr c_int "type"; val c_int "ntype";
       arr c_float "nbfp"; arr c_float "Vnb"]
  | inl3000_sse =>
      [val c_int "nri"; arr c_int "iinr"; arr c_int "jindex";
       arr c_int "jjnr"; arr c_int "shift"; arr c_float "shiftvec";
       arr c_float "fshift"; arr c_int "gid"; arr c_float "pos";
       arr c_float "faction"; arr c_float "charge"; val c_float "facel";
       arr c_float "Vc"; val c_float "tabscale"; arr c_float "VFtab"]
  | inl3010_sse =>
      [val c_int "nri"; arr c_int "iinr"; arr c_int "jindex";
       arr c_int "jjnr"; arr c_int "shift"; arr c_float "shiftvec";
       arr c_float "fshift"; arr c_int "gid"; arr c_float "pos";
       arr c_float "faction"; arr c_float "charge"; val c_float "facel";
       arr c_float "Vc"; val c_float "tabscale"; arr c_float "VFtab";
       arr c_int "nsatoms"]
  | inl3020_sse =>
      [val c_int "nri"; arr c_int "iinr"; arr c_int "jindex";
       arr c_int "jjnr"; arr c_int "shift"; arr c_float "shiftvec";
       arr c_float "fshift"; arr c_int "gid"; arr c_float "pos";
       arr c_float "faction"; arr c_float "charge"; val c_float "facel";
       arr c_float "Vc"; val c_float "tabscale"; arr c_float "VFtab"]
  | inl3030_sse =>
      [val c_int "nri"; arr c_int "iinr"; arr c_int "jindex";
       arr c_int "jjnr"; arr c_int "shift"; arr c_float "shiftvec";
       arr c_float "fshift"; arr c_int "gid"; arr c_float "pos";
       arr c_float "faction"; arr c_float "charge"; val c_float "facel";
       arr c_float "Vc"; val c_float "tabscale"; arr c_float "VFtab"]
  | inl3100_sse =>
      [val c_int "nri"; arr c_int "iinr"; arr c_int "jindex";
       arr c_int "jjnr"; arr c_int "shift"; arr c_float "shiftvec";
       arr c_float "fshift"; arr c_int "gid"; arr c_float "pos";
       arr c_float "faction"; arr c_float "charge"; val c_float "facel";
       arr c_float "Vc"; arr c_int "type"; val c_int "ntype";
       arr c_float "nbfp"; arr c_float "Vnb"; val c_float "tabscale";
       arr c_float "VFtab"]
  | inl3110_sse =>
      [val c_int "nri"; arr c_int "iinr"; arr c_int "jindex";
       arr c_int "jjnr"; arr c_int "shift"; arr c_float "shiftvec";
       arr c_float "fshift"; arr c_int "gid"; arr c_float "pos";
       arr c_float "faction"; arr c_float "charge"; val c_float "facel";
       arr c_float "Vc"; arr c_int "type"; val c_int "ntype";
       arr c_float "nbfp"; arr c_float "Vnb"; val c_float "tabscale";
       arr c_float "VFtab"; arr c_int "nsatoms"]
  | inl3120_sse =>
      [val c_int "nri"; arr c_int "iinr"; arr c_int "jindex";
       arr c_int "jjnr"; arr c_int "shift"; arr c_float "shiftvec";
       arr c_float "fshift"; arr c_int "gid"; arr c_float "pos";
       arr c_float "faction"; arr c_float "charge"; val c_float "facel";
       arr c_float "Vc"; arr c_int "type"; val c_int "ntype";
       arr c_float "nbfp"; arr c_float "Vnb"; val c_float "tabscale";
       arr c_float "VFtab"]
  | inl3130_sse =>
      [val c_int "nri"; arr c_int "iinr"; arr c_int "jindex";
       arr c_int "jjnr"; arr c_int "shift"; arr c_float "shiftvec";
       arr c_float "fshift"; arr c_int "gid"; arr c_float "pos";
       arr c_float "faction"; arr c_float "charge"; val c_float "facel";
       arr c_float "Vc"; arr c_int "type"; val c_int "ntype";
       arr c_float "nbfp"; arr c_float "Vnb"; val c_float "tabscale";
       arr c_float "VFtab"]
  | inl3300_sse =>
      [val c_int "nri"; arr c_int "iinr"; arr c_int "jindex";
       arr c_int "jjnr"; arr c_int "shift"; arr c_float "shiftvec";
       arr c_float "fshift"; arr c_int "gid"; arr c_float "pos";
       arr c_float "faction"; arr c_float "charge"; val c_float "facel";
       arr c_float "Vc"; arr c_int "type"; val c_int "ntype";
       arr c_float "nbfp"; arr c_float "Vnb"; val c_float "tabscale";
       arr c_float "VFtab"]
  | inl3310_sse =>
      [val c_int "nri"; arr c_int "iinr"; arr c_int "jindex";
       arr c_int "jjnr"; arr c_int "shift"; arr c_float "shiftvec";
       arr c_float "fshift"; arr c_int "gid"; arr c_float "pos";
       arr c_float "faction"; arr c_float "charge"; val c_float "facel";
       arr c_float "Vc"; arr c_int "type"; val c_int "ntype";
       arr c_float "nbfp"; arr c_float "Vnb"; val c_float "tabscale";
       arr c_float "VFtab"; arr c_int "nsatoms"]
  | inl3320_sse =>
      [val c_int "nri"; arr c_int "iinr"; arr c_int "jindex";
       arr c_int "jjnr"; arr c_int "shift"; arr c_float "shiftvec";
       arr c_float "fshift"; arr c_int "gid"; arr c_float "pos";
       arr c_float "faction"; arr c_float "charge"; val c_float "facel";
       arr c_float "Vc"; arr c_int "type"; val c_int "ntype";
       arr c_float "nbfp"; arr c_float "Vnb"; val c_float "tabscale";
       arr c_float "VFtab"]
  | inl3330_sse =>
      [val c_int "nri"; arr c_int "iinr"; arr c_int "jindex";
       arr c_int "jjnr"; arr c_int "shift"; arr c_float "shiftvec";
       arr c_float "fshift"; arr c_int "gid"; arr c_float "pos";
       arr c_float "faction"; arr c_float "charge"; val c_float "facel";
       arr c_float "Vc"; arr c_int "type"; val c_int "ntype";
       arr c_float "nbfp"; arr c_float "Vnb"; val c_float "tabscale";
       arr c_float "VFtab"]
  end.

(** The declarations of the header, in its order. *)
Definition declared : list variant :=
  [inl0100_sse; inl0110_sse; inl0300_sse; inl0310_sse;
   inl1000_sse; inl1010_sse; inl1020_sse; inl1030_sse;
   inl1100_sse; inl1110_sse; inl1120_sse; inl1130_sse;
   inl3000_sse; inl3010_sse; inl3020_sse; inl3030_sse;
   inl3100_sse; inl3110_sse; inl3120_sse; inl3130_sse;
   inl3300_sse; inl3310_sse; inl3320_sse; inl3330_sse].

(** The decimal digit at position [i] of an identifier. *)
Definition digit (s : string) (i : nat) : nat :=
  match String.get i s with
  | Some a => (Ascii.nat_of_ascii a - 48)%nat
  | None => O
  end.

(** The four digits of [inlABCD_sse]. *)
Definition electro (v : variant) : nat := digit (name v) 3.
Definition vdw (v : variant) : nat := digit (name v) 4.
Definition solvent (v : variant) : nat := digit (name v) 5.
Definition last_digit (v : variant) : nat := digit (name v) 6.

(** The groups of parameters the prototypes are made of. *)
Definition common_args : list param :=
  [val c_int "nri"; arr c_int "iinr"; arr c_int "jindex"; arr c_int "jjnr";
   arr c_int "shift"; arr c_float "shiftvec"; arr c_float "fshift";
   arr c_int "gid"; arr c_float "pos"; arr c_float "faction"].
Definition coulomb_args : list param :=
  [arr c_float "charge"; val c_float "facel"; arr c_float "Vc"].
Definition vdw_args : list param :=
  [arr c_int "type"; val c_int "ntype"; arr c_float "nbfp"; arr c_float "Vnb"].
Definition table_args : list param :=
  [val c_float "tabscale"; arr c_float "VFtab"].
Definition solvent_args : list param := [arr c_int "nsatoms"].

(** The parameter list a four-digit code stands for. *)
Definition args_of_code (a b c : nat) : list param :=
  common_args
    ++ (if (a =? 0)%nat then [] else coulomb_args)
    ++ (if (b =? 0)%nat then [] else vdw_args)
    ++ (if (a =? 3)%nat || (b =? 3)%nat then table_args else [])
    ++ (if (c =? 1)%nat then solvent_args else []).

End Prototypes.

(* ===================================================================== *)
(** * Part II-c: definitions for the traces of [FramePairManager]         *)
(* ===================================================================== *)

Module FramePairTrace.
Import FramePair.

(** A call the manager makes on one of its readers: [readNextFrame()] with
    its answer, or [frame()]. *)
Inductive reader_call : Set :=
| Probed (found : bool)
| FrameTaken.

(** [k] rounds of a successful probe followed by the taking of the frame. *)
Definition rounds (k : nat) : list reader_call :=
  concat (replicate k [Probed true; FrameTaken]).

(** The failure [shouldContinueComparing] registers when one file runs out
    before the other, for files of [n1] and [n2] frames. *)
Definition length_mismatch (n1 n2 : nat) : list string :=
  if (n2 <? n1)%nat then [first_longer]
  else if (n1 <? n2)%nat then [second_longer]
  else [].

Section Traces.
Context {FrameReader Frame : Type} `{!FrameReaderOps FrameReader Frame}.

(** What one turn of the loop of [compareAllFramePairs] leaves in the
    trace: the call of the callback, then the failures it registered. *)
Definition pair_events (compareTwoFrames : Frame -> Frame -> list string)
    (p : Frame * Frame) : list (event Frame) :=
  CompareTwoFrames p.1 p.2 :: map AddFailure (compareTwoFrames p.1 p.2).

(** The failures registered in a trace, in order. *)
Definition registered_failures (evs : list (event Frame)) : list string :=
  omap (fun e => match e with
                 | AddFailure msg => Some msg
                 | CompareTwoFrames _ _ => None
                 end) evs.

(** A reader that writes down every call made on it, and otherwise does
    what the reader it wraps does. *)
Definition logged_readNextFrame (r : FrameReader * list reader_call)
  : bool * (FrameReader * list reader_call) :=
  let '(b, r') := readNextFrame r.1 in (b, (r', r.2 ++ [Probed b])).

Definition logged_frame (r : FrameReader * list reader_call)
  : Frame * (FrameReader * list reader_call) :=
  let '(f, r') := frame r.1 in (f, (r', r.2 ++ [FrameTaken])).

(** The manager of the wrapped readers. *)
Definition unlogged (m : FramePairManager (FrameReader * list reader_call))
  : FramePairManager FrameReader :=
  mkManager (first_ m).1 (second_ m).1.

(** Every reader state in [P] has a next frame, and is in [P] again once
    the frame is taken: a reader that never runs out. *)
Definition endless (P : FrameReader -> Prop) : Prop :=
  forall r, P r ->
    exists r1 f r2, readNextFrame r = (true, r1) /\ frame r1 = (f, r2) /\ P r2.
End Traces.

#[export] Instance logged_reader {FrameReader Frame : Type}
    `{!FrameReaderOps FrameReader Frame}
  : FrameReaderOps (FrameReader * list reader_call) Frame := {
  readNextFrame := logged_readNextFrame;
  frame := logged_frame
}.

(** A reader that never runs out: frame [n] is the number [n]. *)
Definition counter_readNextFrame (n : nat) : bool * nat := (true, n).
Definition counter_frame (n : nat) : nat * nat := (n, S n).

#[export] Instance counter_reader : FrameReaderOps nat nat := {
  readNextFrame := counter_readNextFrame;
  frame := counter_frame
}.

End FramePairTrace.

(* ===================================================================== *)
(** * Part III: theorems about [FramePairManager]                         *)
(* ===================================================================== *)

Module FramePairFacts.
Import FramePair.

Section Facts.
Context {FrameReader Frame : Type} `{!FrameReaderOps FrameReader Frame}.

Lemma compared_pairs_app (a b : list (event Frame)) :
  compared_pairs (a ++ b) = compared_pairs a ++ compared_pairs b.
Proof. unfold compared_pairs. apply omap_app. Qed.

Lemma compared_pairs_failures (msgs : list string) :
  compared_pairs (Frame := Frame) (map AddFailure msgs) = [].
Proof. induction msgs as [|x msgs IH]; [done|]. exact IH. Qed.

Lemma shouldContinueComparing_eq (m : FramePairManager FrameReader) :
  shouldContinueComparing m =
    (let p1 := readNextFrame (first_ m) in
     let p2 := readNextFrame (second_ m) in
     (p1.1 && p2.1,
      if p1.1 then (if p2.1 then [] else [first_longer])
      else (if p2.1 then [second_longer] else []),
      mkManager p1.2 p2.2)).
Proof.
  unfold shouldContinueComparing.
  destruct (readNextFrame (first_ m)) as [[|] r1];
    destruct (readNextFrame (second_ m)) as [[|] r2]; reflexivity.
Qed.

(** C10. [shouldContinueComparing] answers true exactly when both readers
    find a next frame; it registers a failure exactly when one reader
    finds a frame and the other does not; when both are exhausted it
    answers false and registers nothing. *)
Theorem shouldContinueComparing_spec (m : FramePairManager FrameReader) :
  let found1 := (readNextFrame (first_ m)).1 in
  let found2 := (readNextFrame (second_ m)).1 in
  let answer := (shouldContinueComparing m).1.1 in
  let failures := (shouldContinueComparing m).1.2 in
  (answer = true <-> found1 = true /\ found2 = true) /\
  (failures <> [] <-> found1 <> found2) /\
  (found1 = true -> found2 = false -> failures = [first_longer]) /\
  (found1 = false -> found2 = true -> failures = [second_longer]) /\
  (found1 = false -> found2 = false -> answer = false /\ failures = []).
Proof.
  cbv zeta. rewrite shouldContinueComparing_eq. cbn [fst snd].
  destruct (readNextFrame (first_ m)) as [[|] r1];
    destruct (readNextFrame (second_ m)) as [[|] r2]; cbn [fst snd andb];
    repeat split; intros; try congruence; try discriminate; try tauto;
    match goal with
    | H : _ /\ _ |- _ => destruct H; discriminate
    | H : ?x <> ?x |- _ => contradiction H; reflexivity
    | _ => idtac
    end.
Qed.

(** One turn of the loop when both readers still have a frame. *)
Lemma compareAllFramePairs_step fuel cmp (m : FramePairManager FrameReader)
      r1 r1' r2 r2' f1 f2 :
  readNextFrame (first_ m) = (true, r1) -> frame r1 = (f1, r1') ->
  readNextFrame (second_ m) = (true, r2) -> frame r2 = (f2, r2') ->
  compareAllFramePairs (S fuel) cmp m =
    match compareAllFramePairs fuel cmp (mkManager r1' r2') with
    | Some (evs, m') =>
        Some (CompareTwoFrames f1 f2 :: map AddFailure (cmp f1 f2) ++ evs, m')
    | None => None
    end.
Proof.
  intros H1 F1 H2 F2. cbn [compareAllFramePairs].
  rewrite shouldContinueComparing_eq, H1, H2. cbn. rewrite F1, F2.
  reflexivity.
Qed.



End Facts.


(** With two units of fuel the same run is cut short. *)
Example compareAllFramePairs_out_of_fuel :
  compareAllFramePairs 2 (fun _ _ => []) (mkManager [1; 2; 3] [10; 20])%nat = None.
Proof. reflexivity. Qed.

(** Two trajectories of different lengths: two pairs are compared, then the
    failure for the longer first file is registered. *)
Example compareAllFramePairs_trace :
  compareAllFramePairs 3 (fun _ _ => []) (mkManager [1; 2; 3] [10; 20])%nat
  = Some ([CompareTwoFrames 1 10; CompareTwoFrames 2 20; AddFailure first_longer]%nat,
          mkManager [3]%nat []).
Proof. reflexivity. Qed.

End FramePairFacts.

(* ===================================================================== *)
(** * Part IV: more about [FramePairManager]                              *)
(* ===================================================================== *)

Module FramePairTraceFacts.
Import FramePair FramePairTrace FramePairFacts.

Section TraceFacts.
Context {FrameReader Frame : Type} `{!FrameReaderOps FrameReader Frame}.

Lemma registered_failures_app (a b : list (event Frame)) :
  registered_failures (a ++ b) = registered_failures a ++ registered_failures b.
Proof. unfold registered_failures. apply omap_app. Qed.

Lemma registered_failures_failures (msgs : list string) :
  registered_failures (Frame := Frame) (map AddFailure msgs) = msgs.
Proof.
  induction msgs as [|x msgs IH]; [done|].
  change (x :: registered_failures (Frame := Frame) (map AddFailure msgs) = x :: msgs).
  by rewrite IH.
Qed.

Lemma registered_failures_pair cmp (p : Frame * Frame) :
  registered_failures (pair_events cmp p) = cmp p.1 p.2.
Proof. exact (registered_failures_failures (cmp p.1 p.2)). Qed.

(** The last turn of the loop: what is registered when a reader has run
    out. *)
Lemma compareAllFramePairs_stop_eq fuel cmp (m : FramePairManager FrameReader) :
  (readNextFrame (first_ m)).1 && (readNextFrame (second_ m)).1 = false ->
  compareAllFramePairs (S fuel) cmp m =
    Some (map AddFailure
            (if (readNextFrame (first_ m)).1
             then (if (readNextFrame (second_ m)).1 then [] else [first_longer])
             else (if (readNextFrame (second_ m)).1 then [second_longer] else [])),
          mkManager (readNextFrame (first_ m)).2 (readNextFrame (second_ m)).2).
Proof.
  intros Hstop. cbn [compareAllFramePairs].
  rewrite shouldContinueComparing_eq. cbv zeta. rewrite Hstop. reflexivity.
Qed.

(** The whole trace of a run on two readers that deliver [fs1] and [fs2]. *)
Lemma run_trace cmp (fs1 fs2 : list Frame) :
  forall (m : FramePairManager FrameReader) (fuel : nat),
  delivers (first_ m) fs1 ->
  delivers (second_ m) fs2 ->
  (Nat.min (length fs1) (length fs2) < fuel)%nat ->
  exists m',
    compareAllFramePairs fuel cmp m
    = Some (concat (map (pair_events cmp) (zip fs1 fs2))
              ++ map AddFailure (length_mismatch (length fs1) (length fs2)), m').
Proof.
  revert fs2. induction fs1 as [|f1 fs1 IH]; intros fs2 m fuel D1 D2 Hfuel;
    (destruct fuel as [|fuel]; [cbn in Hfuel; lia|]).
  - inversion D1 as [r r' Hr|]; subst.
    rewrite compareAllFramePairs_stop_eq by (by rewrite Hr).
    rewrite Hr. cbn [fst snd].
    destruct fs2 as [|f2 fs2].
    + inversion D2 as [r2 r2' Hr2|]; subst. rewrite Hr2. eexists. reflexivity.
    + inversion D2 as [|? r2 r2' ? ? Hr2 F2 D2']; subst. rewrite Hr2.
      eexists. reflexivity.
  - destruct fs2 as [|f2 fs2].
    + inversion D1 as [|? r1 r1' ? ? Hr1 F1 D1']; subst.
      inversion D2 as [r2 r2' Hr2|]; subst.
      rewrite compareAllFramePairs_stop_eq by (rewrite Hr2; apply andb_false_r).
      rewrite Hr1, Hr2. cbn [fst snd]. eexists. reflexivity.
    + inversion D1 as [|? r1 r1' ? ? Hr1 F1 D1']; subst.
      inversion D2 as [|? r2 r2' ? ? Hr2 F2 D2']; subst.
      destruct (IH fs2 (mkManager r1' r2') fuel D1' D2') as (m' & Hrun).
      { cbn in Hfuel. lia. }
      rewrite (compareAllFramePairs_step fuel cmp m _ _ _ _ _ _ Hr1 F1 Hr2 F2), Hrun.
      exists m'. cbn [zip zip_with map concat length pair_events fst snd].
      unfold length_mismatch. cbn [Nat.ltb Nat.leb].
      rewrite <- !app_assoc. reflexivity.
Qed.

Lemma registered_failures_pairs cmp (ps : list (Frame * Frame)) :
  registered_failures (concat (map (pair_events cmp) ps))
  = concat (map (fun p => cmp p.1 p.2) ps).
Proof.
  induction ps as [|p ps IH]; [done|].
  cbn [map concat]. rewrite registered_failures_app, registered_failures_pair, IH.
  reflexivity.
Qed.

Lemma length_mismatch_nil (n1 n2 : nat) : length_mismatch n1 n2 = [] <-> n1 = n2.
Proof.
  unfold length_mismatch.
  destruct (Nat.ltb_spec n2 n1); [split; [discriminate|lia]|].
  destruct (Nat.ltb_spec n1 n2); [split; [discriminate|lia]|].
  split; [lia|done].
Qed.

Lemma concat_map_nil {A B : Type} (f : A -> list B) (l : list A) :
  concat (map f l) = [] <-> Forall (fun x => f x = []) l.
Proof.
  induction l as [|x l IH]; cbn [map concat].
  - split; [constructor|done].
  - rewrite app_nil, IH, Forall_cons. reflexivity.
Qed.

(** X1. When the first reader delivers [fs1] and the second [fs2], the
    trace of [compareAllFramePairs] is, pair after pair, the call of the
    callback on the i-th frames followed by the failures that call
    registered, and then, last and once, the failure naming the longer
    file when the two lengths differ; so the failures registered are those
    of the callback, in order, followed by that one. *)
Theorem compareAllFramePairs_full_trace cmp (fs1 fs2 : list Frame)
        (m : FramePairManager FrameReader) (fuel : nat) :
  delivers (first_ m) fs1 ->
  delivers (second_ m) fs2 ->
  (Nat.min (length fs1) (length fs2) < fuel)%nat ->
  exists evs m',
    compareAllFramePairs fuel cmp m = Some (evs, m') /\
    evs = concat (map (pair_events cmp) (zip fs1 fs2))
            ++ map AddFailure (length_mismatch (length fs1) (length fs2)) /\
    registered_failures evs
    = concat (map (fun p => cmp p.1 p.2) (zip fs1 fs2))
        ++ length_mismatch (length fs1) (length fs2).
Proof.
  intros D1 D2 Hfuel.
  destruct (run_trace cmp fs1 fs2 m fuel D1 D2 Hfuel) as (m' & Hrun).
  eexists _, m'. split; [exact Hrun|]. split; [reflexivity|].
  rewrite registered_failures_app, registered_failures_pairs,
    registered_failures_failures.
  reflexivity.
Qed.

(** X2. A run on readers that deliver [fs1] and [fs2] registers no failure
    at all exactly when the two trajectories have the same number of
    frames and the callback registers none on any of the pairs. *)
Theorem comparison_passes_iff cmp (fs1 fs2 : list Frame)
        (m : FramePairManager FrameReader) (fuel : nat) :
  delivers (first_ m) fs1 ->
  delivers (second_ m) fs2 ->
  (Nat.min (length fs1) (length fs2) < fuel)%nat ->
  exists evs m',
    compareAllFramePairs fuel cmp m = Some (evs, m') /\
    (registered_failures evs = [] <->
     length fs1 = length fs2 /\
     Forall (fun p => cmp p.1 p.2 = []) (zip fs1 fs2)).
Proof.
  intros D1 D2 Hfuel.
  destruct (run_trace cmp fs1 fs2 m fuel D1 D2 Hfuel) as (m' & Hrun).
  eexists _, m'. split; [exact Hrun|].
  rewrite registered_failures_app, registered_failures_pairs,
    registered_failures_failures, app_nil, length_mismatch_nil, concat_map_nil.
  tauto.
Qed.

(** X4. While both readers keep delivering frames the loop of
    [compareAllFramePairs] does not end: no amount of fuel lets it
    return. *)
Theorem endless_readers_never_return cmp (P1 P2 : FrameReader -> Prop)
        (fuel : nat) :
  endless P1 -> endless P2 ->
  forall m : FramePairManager FrameReader,
  P1 (first_ m) -> P2 (second_ m) ->
  compareAllFramePairs fuel cmp m = None.
Proof.
  intros E1 E2. induction fuel as [|fuel IH]; intros m H1 H2; [reflexivity|].
  destruct (E1 _ H1) as (r1 & f1 & r1' & Hr1 & F1 & H1').
  destruct (E2 _ H2) as (r2 & f2 & r2' & Hr2 & F2 & H2').
  rewrite (compareAllFramePairs_step fuel cmp m _ _ _ _ _ _ Hr1 F1 Hr2 F2).
  rewrite (IH (mkManager r1' r2')); done.
Qed.

Lemma rounds_S (k : nat) : rounds (S k) = [Probed true; FrameTaken] ++ rounds k.
Proof. reflexivity. Qed.

(** X3. Whatever the two readers do, a run that returns has used each of
    them by the same protocol: [k] times a probe that found a frame
    followed by [frame()], then one last probe, and of the two last
    probes at least one found nothing; [k] is the number of pairs
    compared.  So [frame()] is never called but right after a probe that
    found a frame, and no reader is probed again after a probe that found
    nothing.  The readers that write their calls down change nothing in
    the run. *)
Theorem readers_used_by_protocol cmp (fuel : nat) :
  forall (m m' : FramePairManager (FrameReader * list reader_call))
         (evs : list (event Frame)),
  compareAllFramePairs fuel cmp m = Some (evs, m') ->
  compareAllFramePairs fuel cmp (unlogged m) = Some (evs, unlogged m') /\
  exists k b1 b2,
    (first_ m').2 = (first_ m).2 ++ rounds k ++ [Probed b1] /\
    (second_ m').2 = (second_ m).2 ++ rounds k ++ [Probed b2] /\
    b1 && b2 = false /\
    length (compared_pairs evs) = k.
Proof.
  induction fuel as [|fuel IH]; intros [[r1 l1] [r2 l2]] m' evs Hrun;
    [discriminate|].
  cbn [compareAllFramePairs] in Hrun |- *.
  rewrite !shouldContinueComparing_eq in *. cbv zeta in Hrun |- *.
  cbn [first_ second_ unlogged fst snd readNextFrame logged_reader] in Hrun |- *.
  unfold logged_readNextFrame in Hrun. cbn [fst snd] in Hrun.
  destruct (readNextFrame r1) as [b1 r1'] eqn:Hr1.
  destruct (readNextFrame r2) as [b2 r2'] eqn:Hr2.
  cbn [fst snd] in Hrun |- *.
  destruct (b1 && b2) eqn:Hb.
  - apply andb_prop in Hb as [-> ->].
    cbn [first_ second_ frame logged_reader] in Hrun |- *.
    unfold logged_frame in Hrun. cbn [fst snd] in Hrun.
    destruct (frame r1') as [f1 r1''] eqn:F1.
    destruct (frame r2') as [f2 r2''] eqn:F2.
    destruct (compareAllFramePairs fuel cmp
                (mkManager (r1'', (l1 ++ [Probed true]) ++ [FrameTaken])
                           (r2'', (l2 ++ [Probed true]) ++ [FrameTaken])))
      as [[evs0 m0]|] eqn:Hrec; [|discriminate].
    injection Hrun as <- <-.
    destruct (IH _ _ _ Hrec) as (Hun & k & c1 & c2 & L1 & L2 & Hc & Hlen).
    unfold unlogged in Hun |- *. cbn [first_ second_ fst snd] in Hun, L1, L2 |- *.
    rewrite Hun. split; [reflexivity|].
    exists (S k), c1, c2.
    rewrite L1, L2, rounds_S, <- !app_assoc. repeat split; try done.
    cbn [map app].
    change (CompareTwoFrames f1 f2 :: map AddFailure (cmp f1 f2) ++ evs0)
      with ([CompareTwoFrames f1 f2] ++ map AddFailure (cmp f1 f2) ++ evs0).
    rewrite !compared_pairs_app, compared_pairs_failures. cbn. by rewrite Hlen.
  - injection Hrun as <- <-. split; [reflexivity|].
    exists O, b1, b2. cbn [first_ second_ fst snd rounds replicate concat app].
    repeat split; try done. by rewrite compared_pairs_failures.
Qed.

End TraceFacts.

Section LogFacts.
Context {FrameReader Frame : Type} `{!FrameReaderOps FrameReader Frame}.

Lemma logged_probe (r : FrameReader) (l : list reader_call) :
  readNextFrame (r, l)
  = ((readNextFrame r).1, ((readNextFrame r).2, l ++ [Probed (readNextFrame r).1])).
Proof.
  cbn [readNextFrame logged_reader]. unfold logged_readNextFrame. cbn [fst snd].
  by destruct (readNextFrame r).
Qed.

Lemma logged_take (r : FrameReader) (l : list reader_call) :
  frame (r, l) = ((frame r).1, ((frame r).2, l ++ [FrameTaken])).
Proof.
  cbn [frame logged_reader]. unfold logged_frame. cbn [fst snd].
  by destruct (frame r).
Qed.

(** X7. When the first reader delivers [n1] frames and the second [n2],
    a run probes each of them [min n1 n2 + 1] times and calls [frame()]
    on each [min n1 n2] times, a probe and the taking of its frame in
    turn.  The last probe of a reader finds a frame exactly when that
    reader is the longer one: its frame is probed and never taken, and the
    frames after it are never asked for.  The second reader is probed a
    last time also when the first has just run out. *)
Theorem readers_probed_min_plus_one cmp (fs1 fs2 : list Frame) :
  forall (r1 r2 : FrameReader) (l1 l2 : list reader_call) (fuel : nat),
  delivers r1 fs1 ->
  delivers r2 fs2 ->
  (Nat.min (length fs1) (length fs2) < fuel)%nat ->
  exists evs m',
    compareAllFramePairs fuel cmp (mkManager (r1, l1) (r2, l2)) = Some (evs, m') /\
    (first_ m').2
    = l1 ++ rounds (Nat.min (length fs1) (length fs2))
         ++ [Probed (length fs2 <? length fs1)%nat] /\
    (second_ m').2
    = l2 ++ rounds (Nat.min (length fs1) (length fs2))
         ++ [Probed (length fs1 <? length fs2)%nat].
Proof.
  revert fs2. induction fs1 as [|f1 fs1 IH]; intros fs2 r1 r2 l1 l2 fuel D1 D2 Hfuel;
    (destruct fuel as [|fuel]; [cbn in Hfuel; lia|]).
  - inversion D1 as [r r' Hr|]; subst.
    destruct fs2 as [|f2 fs2].
    + inversion D2 as [r0 r0' Hr2|]; subst.
      eexists _, _. split.
      { rewrite compareAllFramePairs_stop_eq
          by (cbn [first_ second_]; rewrite !logged_probe, Hr; reflexivity).
        reflexivity. }
      cbn [first_ second_]. rewrite !logged_probe, Hr, Hr2. done.
    + inversion D2 as [|? r0 r0' ? ? Hr2 F2 D2']; subst.
      eexists _, _. split.
      { rewrite compareAllFramePairs_stop_eq
          by (cbn [first_ second_]; rewrite !logged_probe, Hr; reflexivity).
        reflexivity. }
      cbn [first_ second_]. rewrite !logged_probe, Hr, Hr2. done.
  - destruct fs2 as [|f2 fs2].
    + inversion D1 as [|? r r' ? ? Hr1 F1 D1']; subst.
      inversion D2 as [r0 r0' Hr2|]; subst.
      eexists _, _. split.
      { rewrite compareAllFramePairs_stop_eq
          by (cbn [first_ second_]; rewrite !logged_probe, Hr2; apply andb_false_r).
        reflexivity. }
      cbn [first_ second_]. rewrite !logged_probe, Hr1, Hr2. done.
    + inversion D1 as [|? r r' ? ? Hr1 F1 D1']; subst.
      inversion D2 as [|? r0 r0' ? ? Hr2 F2 D2']; subst.
      destruct (IH fs2 r' r0' ((l1 ++ [Probed true]) ++ [FrameTaken])
                  ((l2 ++ [Probed true]) ++ [FrameTaken]) fuel D1' D2')
        as (evs & m' & Hrun & L1 & L2).
      { cbn in Hfuel. lia. }
      eexists _, m'. split.
      { rewrite (compareAllFramePairs_step fuel cmp
                   (mkManager (r1, l1) (r2, l2))
                   (r, l1 ++ [Probed true]) (r', (l1 ++ [Probed true]) ++ [FrameTaken])
                   (r0, l2 ++ [Probed true]) (r0', (l2 ++ [Probed true]) ++ [FrameTaken])
                   f1 f2).
        - rewrite Hrun. reflexivity.
        - cbn [first_]. by rewrite logged_probe, Hr1.
        - by rewrite logged_take, F1.
        - cbn [second_]. by rewrite logged_probe, Hr2.
        - by rewrite logged_take, F2. }
      rewrite L1, L2. cbn [length Nat.min Nat.ltb Nat.leb].
      rewrite rounds_S, <- !app_assoc. done.
Qed.

End LogFacts.

(** An in-memory trajectory delivers its frames. *)
Lemma list_delivers (l : list nat) : delivers l l.
Proof.
  induction l as [|x l IH].
  - by apply (delivers_done [] []).
  - by apply (delivers_frame (x :: l) (x :: l) l x l).
Qed.

(** A callback that registers a failure where the second frame is not ten
    times the first. *)
Definition ten_times (a b : nat) : list string :=
  if (10 * a =? b)%nat then [] else ["frames differ"].

(** X1 at trajectories of three and two frames whose second frames
    differ. *)
Lemma compareAllFramePairs_full_trace_witness :
  exists evs m',
    compareAllFramePairs 3 ten_times (mkManager [1; 2; 3] [10; 21])%nat
      = Some (evs, m') /\
    evs = concat (map (pair_events ten_times) (zip [1; 2; 3] [10; 21]))%nat
            ++ map AddFailure (length_mismatch 3 2) /\
    registered_failures evs
    = concat (map (fun p => ten_times p.1 p.2) (zip [1; 2; 3] [10; 21]))%nat
        ++ length_mismatch 3 2.
Proof.
  apply (compareAllFramePairs_full_trace ten_times [1; 2; 3]%nat [10; 21]%nat
           (mkManager [1; 2; 3] [10; 21])%nat 3%nat).
  - repeat (econstructor; try reflexivity).
  - repeat (econstructor; try reflexivity).
  - cbn. lia.
Defined.

(** The trace of that run, spelled out. *)
Example full_trace_spelled_out :
  compareAllFramePairs 3 ten_times (mkManager [1; 2; 3] [10; 21])%nat
  = Some ([CompareTwoFrames 1 10; CompareTwoFrames 2 21;
           AddFailure "frames differ"; AddFailure first_longer]%nat,
          mkManager [3]%nat []).
Proof. reflexivity. Qed.

(** X2 at two trajectories of two frames that agree. *)
Lemma comparison_passes_iff_witness :
  exists evs m',
    compareAllFramePairs 3 ten_times (mkManager [1; 2] [10; 20])%nat
      = Some (evs, m') /\
    (registered_failures evs = [] <->
     length [1; 2]%nat = length [10; 20]%nat /\
     Forall (fun p => ten_times p.1 p.2 = []) (zip [1; 2] [10; 20])%nat).
Proof.
  apply (comparison_passes_iff ten_times [1; 2]%nat [10; 20]%nat
           (mkManager [1; 2] [10; 20])%nat 3%nat).
  - repeat (econstructor; try reflexivity).
  - repeat (econstructor; try reflexivity).
  - cbn. lia.
Defined.

(** X3 at trajectories of three and two frames, the logs empty at the
    start. *)
Lemma readers_used_by_protocol_witness :
  exists evs m',
    compareAllFramePairs 3 ten_times
      (mkManager ([1; 2; 3]%nat, []) ([10; 20]%nat, [])) = Some (evs, m') /\
    compareAllFramePairs 3 ten_times (mkManager [1; 2; 3] [10; 20])%nat
      = Some (evs, unlogged m') /\
    exists k b1 b2,
      (first_ m').2 = [] ++ rounds k ++ [Probed b1] /\
      (second_ m').2 = [] ++ rounds k ++ [Probed b2] /\
      b1 && b2 = false /\
      length (compared_pairs evs) = k.
Proof.
  eexists _, _. split.
  - vm_compute. reflexivity.
  - apply (readers_used_by_protocol ten_times 3
             (mkManager ([1; 2; 3]%nat, []) ([10; 20]%nat, []))).
    vm_compute. reflexivity.
Defined.

(** X7 at trajectories of three and two frames: three probes of each
    reader, two frames taken from each, the third frame of the first
    probed and left. *)
Lemma readers_probed_min_plus_one_witness :
  exists evs m',
    compareAllFramePairs 3 ten_times
      (mkManager ([1; 2; 3]%nat, []) ([10; 20]%nat, [])) = Some (evs, m') /\
    (first_ m').2 = [] ++ rounds 2 ++ [Probed true] /\
    (second_ m').2 = [] ++ rounds 2 ++ [Probed false].
Proof.
  apply (readers_probed_min_plus_one ten_times [1; 2; 3]%nat [10; 20]%nat
           [1; 2; 3]%nat [10; 20]%nat [] [] 3%nat).
  - repeat (econstructor; try reflexivity).
  - repeat (econstructor; try reflexivity).
  - cbn. lia.
Defined.

(** X4 at two counters. *)
Lemma endless_readers_never_return_witness :
  compareAllFramePairs 1000 (fun _ _ => []) (mkManager 5 7)%nat = None.
Proof.
  apply (endless_readers_never_return (fun _ _ => []) (fun _ => True) (fun _ => True)).
  - intros r _. exists r, r, (S r). repeat split.
  - intros r _. exists r, r, (S r). repeat split.
  - exact I.
  - exact I.
Defined.

End FramePairTraceFacts.

(* ===================================================================== *)
(** * Part V: the prototypes of [inner_sse.h]                             *)
(* ===================================================================== *)

Module PrototypeFacts.
Import Kernel Prototypes.

(** X5. The four digits in the name of a prototype fix its parameter list:
    the ten common parameters; then [charge], [facel], [Vc] unless the
    first digit is 0; then [type], [ntype], [nbfp], [Vnb] unless the
    second digit is 0; then [tabscale], [VFtab] when one of the two is 3;
    then [nsatoms] when the third digit is 1.  The fourth digit is 0 in
    all 24 declarations, and no two of them share their digits. *)
Theorem prototype_by_code :
  (forall v, prototype v = args_of_code (electro v) (vdw v) (solvent v)) /\
  (forall v, last_digit v = O) /\
  (forall v w, (electro v, vdw v, solvent v) = (electro w, vdw w, solvent w) -> v = w).
Proof.
  split; [|split].
  - intros v. destruct v; vm_compute; reflexivity.
  - intros v. destruct v; reflexivity.
  - intros v w. destruct v; destruct w; vm_compute; intros Heq;
      first [reflexivity | discriminate Heq].
Qed.

(** X6. The flags of the variants are what the header declares:
    a variant counts as taking [Vc], [Vnb], [VFtab] or [nsatoms] exactly
    when its prototype has that array among its parameters; and every
    prototype has at least one of the two energy arrays. *)
Theorem flags_read_off_prototype (v : variant) :
  takes_Vc v = bool_decide (arr c_float "Vc" ∈ prototype v) /\
  takes_Vnb v = bool_decide (arr c_float "Vnb" ∈ prototype v) /\
  takes_VFtab v = bool_decide (arr c_float "VFtab" ∈ prototype v) /\
  takes_nsatoms v = bool_decide (arr c_int "nsatoms" ∈ prototype v) /\
  takes_Vc v || takes_Vnb v = true.
Proof.
  destruct v; vm_compute; repeat split; reflexivity.
Qed.

End PrototypeFacts.
